(** * Disk I/O plugin with NVMe metrics (glances/plugins/diskio, nvme_metrics,
      nvme_detection): a shallow embedding of the sampling code and its
      rate computation.

    Conventions of the embedding:
    - Python ints (psutil counters) are [Z]; [time.time()] values and the
      speeds computed from them are rationals [Q] (the float rounding of the
      source is not modelled).
    - A Python exception raised by a collaborator is the [None] of an
      [option] where the source catches it right away, and the [Raise]
      constructor of [py_result] where it may escape the function.
    - A psutil [perdisk=True] dict is an association list: its iteration
      order is the order of the list.  The [last_disk_stats] dict of
      [NVMeMetrics], only ever looked up and overwritten, is a [gmap]. *)

From Stdlib Require Import QArith Lia Ascii.
From stdpp Require Import base gmap strings list.

Open Scope Q_scope.

(** ** Results of Python calls that may raise *)

Inductive py_result (A : Type) : Type :=
| Return (a : A)
| Raise (exn : string).
Arguments Return {A} a.
Arguments Raise {A} exn.

Definition py_bind {A B} (m : py_result A) (k : A -> py_result B) : py_result B :=
  match m with
  | Return a => k a
  | Raise e => Raise e
  end.

Global Instance py_result_bind : MBind py_result := fun A B k m => py_bind m k.

(** A Python [for] loop that appends one item per element and lets an
    exception of the body escape. *)
Fixpoint py_map {A B} (f : A -> py_result B) (l : list A) : py_result (list B) :=
  match l with
  | [] => Return []
  | x :: xs => y ← f x; ys ← py_map f xs; Return (y :: ys)
  end.

(** ** psutil disk counters *)

(** The fields of psutil's [sdiskio] tuple that the plugin reads. *)
Record sdiskio := mk_sdiskio {
  read_count : Z;
  write_count : Z;
  read_bytes : Z;
  write_bytes : Z;
}.

(** [psutil.disk_io_counters(perdisk=True)]: disk name to counters, in the
    dict's iteration order. *)
Definition perdisk := list (string * sdiskio).

(** [diskio[device_id]] / [device_id in diskio] on a Python dict. *)
Fixpoint dict_get (d : perdisk) (k : string) : option sdiskio :=
  match d with
  | [] => None
  | (k', v) :: d' => if String.eqb k k' then Some v else dict_get d' k
  end.

(** ** NVMeMetrics (nvme_metrics.py; the identical class at the bottom of
       diskio/__init__.py, which is the one [update_local] instantiates) *)

Record NVMeMetrics := mk_NVMeMetrics {
  last_disk_stats : gmap string sdiskio;
  last_update_time : Q;
}.

(** [__init__]: [now] is the value of [time.time()] at construction. *)
Definition NVMeMetrics_init (now : Q) : NVMeMetrics :=
  {| last_disk_stats := ∅; last_update_time := now |}.

(** The dict returned by [get_disk_io_metrics]. *)
Record io_metrics := mk_io_metrics {
  io_read_speed : Q;
  io_write_speed : Q;
  io_read_count : Z;
  io_write_count : Z;
}.

(** [get_disk_io_metrics(self, device_id)].  [diskio_call] is the result of
    [psutil.disk_io_counters(perdisk=True)] ([None]: it raised) and
    [current_time] the value of [time.time()].  A zero [elapsed_time] makes
    the float division raise [ZeroDivisionError]; every exception is caught
    by the [except] clause, which returns [None] before the state update. *)
Definition get_disk_io_metrics (self : NVMeMetrics) (diskio_call : option perdisk)
    (current_time : Q) (device_id : string) : option io_metrics * NVMeMetrics :=
  match diskio_call with
  | None => (None, self)
  | Some diskio =>
    match dict_get diskio device_id with
    | None => (None, self)
    | Some current_stats =>
      let speeds :=
        match last_disk_stats self !! device_id with
        | Some last_stats =>
          let elapsed_time := current_time - last_update_time self in
          if Qeq_bool elapsed_time 0 then None
          else Some (inject_Z (read_bytes current_stats - read_bytes last_stats) / elapsed_time,
                     inject_Z (write_bytes current_stats - write_bytes last_stats) / elapsed_time)
        | None => Some (0, 0)
        end in
      match speeds with
      | None => (None, self)
      | Some (read_speed, write_speed) =>
        (Some {| io_read_speed := read_speed;
                 io_write_speed := write_speed;
                 io_read_count := read_count current_stats;
                 io_write_count := write_count current_stats |},
         {| last_disk_stats := <[device_id := current_stats]> (last_disk_stats self);
            last_update_time := current_time |})
      end
    end
  end.

(** ** WMI (nvme_detection.py) *)

(** A [Win32_DiskDrive] object; [DiskSize = None] (the [Size] property) when [int(disk.Size)]
    raises (WMI reports no size). *)
Record wmi_disk := mk_wmi_disk {
  DeviceID : string;
  Model : string;
  DiskSize : option Z;
}.

(** One WMI session: [wmi.WMI()] raises, or [c.Win32_DiskDrive()] raises,
    or the query lists the disk drives. *)
Inductive wmi_result :=
| WMIUnavailable
| QueryFailed
| Drives (ds : list wmi_disk).

(** Python's [sub in s] on strings. *)
Definition py_str_in (sub s : string) : bool :=
  match String.index 0 sub s with Some _ => true | None => false end.

(** The dict appended to [self.nvme_drives]; [nd_Size] is the size in GB
    ([int(disk.Size) / (1024**3)], the rounding to two decimals is not
    modelled). *)
Record nvme_drive := mk_nvme_drive {
  nd_DeviceID : string;
  nd_Model : string;
  nd_Size : Q;
}.

Record NVMeDetection := mk_NVMeDetection { nvme_drives : list nvme_drive }.

Definition NVMeDetection_init : NVMeDetection := {| nvme_drives := [] |}.

(** The [for] loop of [detect_nvme_drives]: appends to [acc]
    ([self.nvme_drives]) and reports whether [int(disk.Size)] raised,
    leaving the drives appended so far in place. *)
Fixpoint detect_loop (acc : list nvme_drive) (ds : list wmi_disk) : list nvme_drive * bool :=
  match ds with
  | [] => (acc, false)
  | disk :: ds' =>
    if py_str_in "Samsung SSD 990 PRO" (Model disk) then
      match DiskSize disk with
      | None => (acc, true)
      | Some sz =>
        detect_loop (acc ++ [{| nd_DeviceID := DeviceID disk; nd_Model := Model disk;
                                nd_Size := inject_Z sz / inject_Z (1024 ^ 3) |}]) ds'
      end
    else detect_loop acc ds'
  end.

(** [detect_nvme_drives(self)]: returned list and updated object. *)
Definition detect_nvme_drives (self : NVMeDetection) (wmi : wmi_result)
    : list nvme_drive * NVMeDetection :=
  match wmi with
  | WMIUnavailable | QueryFailed => ([], self)
  | Drives ds =>
    let '(l, raised) := detect_loop (nvme_drives self) ds in
    (if raised then [] else l, {| nvme_drives := l |})
  end.

(** [list_nvme_drives(self)]: returns [self.nvme_drives], detecting first
    when it is empty (the value returned by [detect_nvme_drives] is
    discarded). *)
Definition list_nvme_drives (self : NVMeDetection) (wmi : wmi_result)
    : list nvme_drive * NVMeDetection :=
  match nvme_drives self with
  | [] => let self' := snd (detect_nvme_drives self wmi) in (nvme_drives self', self')
  | l => (l, self)
  end.

(** The dict returned by [get_nvme_health_metrics]. *)
Record health_metrics := mk_health_metrics {
  hm_health_status : string;
  hm_temperature : option Q;
}.

(** [get_nvme_health_metrics(device_id)]: [wmi.WMI()] sits outside the
    [try], so its exception escapes; an exception of the query is caught
    ([None]); a loop that finds no drive falls off the end ([None]). *)
Definition get_nvme_health_metrics (wmi : wmi_result) (device_id : string)
    : py_result (option health_metrics) :=
  match wmi with
  | WMIUnavailable => Raise "wmi.WMI()"
  | QueryFailed => Return None
  | Drives ds =>
    match List.find (fun disk => String.eqb (DeviceID disk) device_id) ds with
    | Some _ => Return (Some {| hm_health_status := "Healthy"; hm_temperature := None |})
    | None => Return None
    end
  end.

(** ** The diskio plugin (diskio/__init__.py) *)

(** The parts of the plugin object that [update_local] reads:
    [self.args] ([None] when it is [None], otherwise the value of
    [args.diskio_show_ramfs]) and the inherited [is_display] check. *)
Record PluginModel := mk_PluginModel {
  args : option bool;
  is_display : string -> bool;
}.

(** [get_key()]. *)
Definition get_key : string := "disk_name".

(** One dict of the [stats] list. *)
Record stat := mk_stat {
  st_key : string;
  st_disk_name : string;
  st_read_speed : Q;
  st_write_speed : Q;
  st_read_count : Z;
  st_write_count : Z;
  st_read_bytes : Z;
  st_write_bytes : Z;
  st_health_status : string;
  st_temperature : option Q;
}.

(** What one call of [update_local] observes from the outside world. *)
Record tick_env := mk_tick_env {
  (** [psutil.disk_io_counters(perdisk=True)] in [update_local]. *)
  env_diskio : option perdisk;
  (** The WMI session of [detect_nvme_drives]. *)
  env_detect_wmi : wmi_result;
  (** Per NVMe DeviceID: the psutil call inside [get_disk_io_metrics], the
      [time.time()] of [NVMeMetrics()] and that of the call. *)
  env_drive_io : string -> option perdisk * Q * Q;
  (** The WMI session of [get_nvme_health_metrics]. *)
  env_health_wmi : wmi_result;
}.

(** The body of the NVMe loop: a fresh [NVMeMetrics()] per drive. *)
Definition nvme_stat (env : tick_env) (nvme_drive : nvme_drive) : py_result stat :=
  let '(io_call, t_init, t_call) := env_drive_io env (nd_DeviceID nvme_drive) in
  let io_metrics := fst (get_disk_io_metrics (NVMeMetrics_init t_init) io_call t_call
                                             (nd_DeviceID nvme_drive)) in
  health_metrics ← get_nvme_health_metrics (env_health_wmi env) (nd_DeviceID nvme_drive);
  Return {| st_key := get_key;
            st_disk_name := nd_Model nvme_drive;
            st_read_speed := match io_metrics with Some m => io_read_speed m | None => 0 end;
            st_write_speed := match io_metrics with Some m => io_write_speed m | None => 0 end;
            st_read_count := match io_metrics with Some m => io_read_count m | None => 0%Z end;
            st_write_count := match io_metrics with Some m => io_write_count m | None => 0%Z end;
            st_read_bytes := 0%Z;
            st_write_bytes := 0%Z;
            st_health_status :=
              match health_metrics with Some h => hm_health_status h | None => "Unknown" end;
            st_temperature :=
              match health_metrics with Some h => hm_temperature h | None => None end |}.

(** The RAM-disk test of the regular loop. *)
Definition skip_ramfs (self : PluginModel) (disk_name : string) : bool :=
  match args self with
  | Some diskio_show_ramfs => negb diskio_show_ramfs && String.prefix "ram" disk_name
  | None => false
  end.

(** The stat built for a regular disk ([filter_stats] keeps the counters). *)
Definition regular_stat (disk_name : string) (disk_stat : sdiskio) : stat :=
  {| st_key := get_key;
     st_disk_name := disk_name;
     st_read_speed := 0;
     st_write_speed := 0;
     st_read_count := read_count disk_stat;
     st_write_count := write_count disk_stat;
     st_read_bytes := read_bytes disk_stat;
     st_write_bytes := write_bytes disk_stat;
     st_health_status := "N/A";
     st_temperature := None |}.

(** The loop over the regular disks, in the dict's order. *)
Fixpoint regular_stats (self : PluginModel) (diskio : perdisk) : list stat :=
  match diskio with
  | [] => []
  | (disk_name, disk_stat) :: rest =>
    if skip_ramfs self disk_name then regular_stats self rest
    else if negb (is_display self disk_name) then regular_stats self rest
    else regular_stat disk_name disk_stat :: regular_stats self rest
  end.

(** [update_local(self)] (without the inherited [_manage_rate] decorator). *)
Definition update_local (self : PluginModel) (env : tick_env) : py_result (list stat) :=
  match env_diskio env with
  | None => Return []
  | Some diskio =>
    let nvme_detector := NVMeDetection_init in
    let nvme_drives := fst (list_nvme_drives nvme_detector (env_detect_wmi env)) in
    nvme_stats ← py_map (nvme_stat env) nvme_drives;
    Return (nvme_stats ++ regular_stats self diskio)
  end.

(** ** The curses view ([PluginModel.msg_curse]) *)

(** Python strings count code points; a Rocq [string] holds the UTF-8
    bytes.  [is_cont] recognises a UTF-8 continuation byte. *)
Definition is_cont (c : Ascii.ascii) : bool :=
  let n := Ascii.nat_of_ascii c in (128 <=? n)%nat && (n <? 192)%nat.

(** [len(s)]. *)
Fixpoint py_len (s : string) : nat :=
  match s with
  | EmptyString => 0
  | String c r => if is_cont c then py_len r else S (py_len r)
  end.

(** [s[:n]] for [n >= 0]: the first [n] code points. *)
Fixpoint py_take (n : nat) (s : string) : string :=
  match s with
  | EmptyString => EmptyString
  | String c r =>
    if is_cont c then String c (py_take n r)
    else match n with
         | O => EmptyString
         | S n' => String c (py_take n' r)
         end
  end.

Fixpoint spaces (n : nat) : string :=
  match n with
  | O => EmptyString
  | S n' => String " " (spaces n')
  end.

(** ['{:w}'.format(s)] with [w >= 0] (strings are left-aligned). *)
Definition ljust (w : nat) (s : string) : string := s +:+ spaces (w - py_len s).

(** ['{:>w}'.format(s)]. *)
Definition rjust (w : nat) (s : string) : string := spaces (w - py_len s) +:+ s.

(** ['{:{width}}'.format(s, width=w)]: a negative width is read as a sign
    flag, which raises [ValueError] for a string. *)
Definition format_width (w : Z) (s : string) : py_result string :=
  if (w <? 0)%Z then Raise "ValueError" else Return (ljust (Z.to_nat w) s).

(** One entry of the list [msg_curse] returns: [curse_add_line(msg,
    decoration)] or [curse_new_line()]. *)
Inductive curse_item :=
| CurseLine (msg : string) (decoration : string)
| CurseNewLine.

(** [curse_add_line(msg)] with its default decoration. *)
Definition curse_add_line (msg : string) : curse_item := CurseLine msg "DEFAULT".

Section MsgCurse.
  (** Inherited from [GlancesPluginModel]: the order of [sorted_stats()],
      the hide-zero test [all(self.get_views(..., option='hidden') for f
      in self.hide_zero_fields)], the alias of a disk ([i['alias']] when
      present), [auto_unit] and Python's [str] of a float. *)
Variable sorted_stats : list stat -> list stat.
Variable all_hidden : stat -> bool.
Variable alias : stat -> option string.
Variable auto_unit : option Q -> string.
Variable py_str_float : Q -> string.

  (** [f"{i.get('temperature', 'N/A')}°C" if i.get('temperature') else "N/A"]:
      [None] and [0.0] are falsy. *)
Definition temperature_text (i : stat) : string :=
    match st_temperature i with
    | Some t => if Qeq_bool t 0 then "N/A" else py_str_float t +:+ "°C"
    | None => "N/A"
    end.

  (** The alias or disk name, cut to [name_max_width] code points plus
      ['_'] when longer ([nativestr] returns a [str] unchanged).  Only
      reached with [name_max_width >= 0]: a negative one has already made
      the title raise. *)
Definition display_name (name_max_width : Z) (i : stat) : string :=
    let disk_name := match alias i with Some a => a | None => st_disk_name i end in
    if (name_max_width <? Z.of_nat (py_len disk_name))%Z
    then py_take (Z.to_nat name_max_width) disk_name +:+ "_"
    else disk_name.

  (** The items appended for one displayed disk. *)
Definition curse_row (name_max_width : Z) (i : stat) : py_result (list curse_item) :=
    msg ← format_width (name_max_width + 1) (display_name name_max_width i);
    Return [CurseNewLine;
            curse_add_line msg;
            curse_add_line (rjust 8 (auto_unit (Some (st_read_speed i))));
            curse_add_line (rjust 7 (auto_unit (Some (st_write_speed i))));
            curse_add_line (rjust 10 (temperature_text i));
            curse_add_line (rjust 12 (st_health_status i))].

  (** The [for i in self.sorted_stats()] loop. *)
Fixpoint curse_rows (name_max_width : Z) (l : list stat) : py_result (list curse_item) :=
    match l with
    | [] => Return []
    | i :: l' =>
      if all_hidden i then curse_rows name_max_width l'
      else r ← curse_row name_max_width i; rs ← curse_rows name_max_width l'; Return (r ++ rs)
    end.

  (** [msg_curse(self, args, max_width)] over [self.stats]. *)
Definition msg_curse (stats : list stat) (is_disabled : bool) (max_width : option Z)
      : py_result (list curse_item) :=
    match stats with
    | [] => Return []
    | _ :: _ =>
      if is_disabled then Return []
      else match max_width with
           | None => Return []
           | Some mw =>
             if (mw =? 0)%Z then Return []
             else
               let name_max_width := (mw - 30)%Z in
               title ← format_width name_max_width "DISK I/O";
               rows ← curse_rows name_max_width (sorted_stats stats);
               Return ([CurseLine title "TITLE";
                        curse_add_line (rjust 8 "R/s");
                        curse_add_line (rjust 7 "W/s");
                        curse_add_line (rjust 10 "Temp");
                        curse_add_line (rjust 12 "Health")] ++ rows)
           end
    end.
End MsgCurse.

(** The drives [detect_nvme_drives] appends for the disks [ds] of a query:
    those whose model contains "Samsung SSD 990 PRO" and that have a size. *)
Definition samsung_drives (ds : list wmi_disk) : list nvme_drive :=
  List.flat_map (fun disk =>
     if py_str_in "Samsung SSD 990 PRO" (Model disk) then
       match DiskSize disk with
       | Some sz => [{| nd_DeviceID := DeviceID disk; nd_Model := Model disk;
                        nd_Size := inject_Z sz / inject_Z (1024 ^ 3) |}]
       | None => []
       end
     else []) ds.

(** ** Concrete inputs used by the examples below *)

Definition dev0 : string := "PhysicalDrive0".

Definition drive0 : wmi_disk :=
  {| DeviceID := dev0; Model := "Samsung SSD 990 PRO 2TB"; DiskSize := Some 2000398934016%Z |}.

Definition counters (rc rb : Z) : sdiskio :=
  {| read_count := rc; write_count := 5; read_bytes := rb; write_bytes := 0 |}.

(** A tick at time [t] where the single NVMe drive has [rb] bytes read. *)
Definition tick_at (t : Q) (rb : Z) : tick_env :=
  {| env_diskio := Some [(dev0, counters 10 rb)];
     env_detect_wmi := Drives [drive0];
     env_drive_io := fun _ => (Some [(dev0, counters 10 rb)], t, t);
     env_health_wmi := Drives [drive0] |}.

Definition plugin0 : PluginModel := {| args := Some false; is_display := fun _ => true |}.

(** A matching drive for which WMI reports no size. *)
Definition drive_no_size : wmi_disk :=
  {| DeviceID := "PhysicalDrive1"; Model := "Samsung SSD 990 PRO 1TB"; DiskSize := None |}.

(** A tick where a drive is detected but [wmi.WMI()] raises in
    [get_nvme_health_metrics]. *)
Definition env_health_down : tick_env :=
  {| env_diskio := Some [(dev0, counters 10 0)];
     env_detect_wmi := Drives [drive0];
     env_drive_io := fun _ => (Some [(dev0, counters 10 0)], 0, 0);
     env_health_wmi := WMIUnavailable |}.

(** A tick with no NVMe drive detected and the given psutil result. *)
Definition env_regular (diskio_call : option perdisk) : tick_env :=
  {| env_diskio := diskio_call;
     env_detect_wmi := Drives [];
     env_drive_io := fun _ => (None, 0, 0);
     env_health_wmi := Drives [] |}.

(** A tick where the NVMe drive is detected but psutil raises. *)
Definition env_no_counters : tick_env :=
  {| env_diskio := None;
     env_detect_wmi := Drives [drive0];
     env_drive_io := fun _ => (None, 0, 0);
     env_health_wmi := Drives [drive0] |}.

(** A plugin that shows RAM disks but whose [is_display] hides every disk. *)
Definition plugin_ramfs_hidden : PluginModel :=
  {| args := Some true; is_display := fun _ => false |}.

(** ** Lemmas on [get_disk_io_metrics] *)

Lemma get_disk_io_metrics_first (self : NVMeMetrics) (diskio : perdisk) (t : Q)
    (device_id : string) (cur : sdiskio) :
  dict_get diskio device_id = Some cur ->
  last_disk_stats self !! device_id = None ->
  get_disk_io_metrics self (Some diskio) t device_id =
    (Some {| io_read_speed := 0; io_write_speed := 0;
             io_read_count := read_count cur; io_write_count := write_count cur |},
     {| last_disk_stats := <[device_id := cur]> (last_disk_stats self);
        last_update_time := t |}).
Proof. intros Hd Hl. unfold get_disk_io_metrics. now rewrite Hd, Hl. Qed.

Lemma get_disk_io_metrics_prior (self : NVMeMetrics) (diskio : perdisk) (t : Q)
    (device_id : string) (cur last : sdiskio) :
  dict_get diskio device_id = Some cur ->
  last_disk_stats self !! device_id = Some last ->
  ~ (t - last_update_time self == 0) ->
  get_disk_io_metrics self (Some diskio) t device_id =
    (Some {| io_read_speed :=
               inject_Z (read_bytes cur - read_bytes last) / (t - last_update_time self);
             io_write_speed :=
               inject_Z (write_bytes cur - write_bytes last) / (t - last_update_time self);
             io_read_count := read_count cur; io_write_count := write_count cur |},
     {| last_disk_stats := <[device_id := cur]> (last_disk_stats self);
        last_update_time := t |}).
Proof.
  intros Hd Hl Hdt. unfold get_disk_io_metrics. rewrite Hd, Hl.
  destruct (Qeq_bool (t - last_update_time self) 0) eqn:E; [|reflexivity].
  apply Qeq_bool_iff in E. contradiction.
Qed.

Lemma get_disk_io_metrics_zero_elapsed (self : NVMeMetrics) (diskio : perdisk) (t : Q)
    (device_id : string) (cur last : sdiskio) :
  dict_get diskio device_id = Some cur ->
  last_disk_stats self !! device_id = Some last ->
  t - last_update_time self == 0 ->
  get_disk_io_metrics self (Some diskio) t device_id = (None, self).
Proof.
  intros Hd Hl Hdt. unfold get_disk_io_metrics. rewrite Hd, Hl.
  apply Qeq_bool_iff in Hdt. now rewrite Hdt.
Qed.

Lemma get_disk_io_metrics_time (self self' : NVMeMetrics) (c : option perdisk) (t : Q)
    (device_id : string) (m : io_metrics) :
  get_disk_io_metrics self c t device_id = (Some m, self') ->
  last_update_time self' = t.
Proof.
  unfold get_disk_io_metrics.
  destruct c as [diskio|]; [|discriminate].
  destruct (dict_get diskio device_id); [|discriminate].
  destruct (last_disk_stats self !! device_id).
  - destruct (Qeq_bool _ 0); [discriminate|]. intros H; now inversion H.
  - intros H; now inversion H.
Qed.

(** A fresh [NVMeMetrics()] never reports a non-zero speed. *)
Lemma get_disk_io_metrics_fresh (t0 t : Q) (c : option perdisk) (device_id : string)
    (m : io_metrics) :
  fst (get_disk_io_metrics (NVMeMetrics_init t0) c t device_id) = Some m ->
  io_read_speed m = 0 /\ io_write_speed m = 0.
Proof.
  unfold get_disk_io_metrics; simpl.
  destruct c as [diskio|]; [|discriminate].
  destruct (dict_get diskio device_id); [|discriminate].
  rewrite lookup_empty. simpl. intros H; inversion H; subst. now split.
Qed.

(** ** Lemmas on [update_local] *)

Lemma py_map_Forall {A B} (f : A -> py_result B) (P : B -> Prop) (l : list A) (r : list B) :
  (forall x y, f x = Return y -> P y) ->
  py_map f l = Return r -> Forall P r.
Proof.
  intros Hf. revert r. induction l as [|x xs IH]; intros r; simpl.
  - intros H; inversion H; constructor.
  - unfold mbind, py_result_bind, py_bind.
    destruct (f x) as [y|e] eqn:Ey; [|discriminate].
    destruct (py_map f xs) as [ys|e] eqn:Eys; [|discriminate].
    intros H; inversion H; subst. constructor; eauto.
Qed.

Lemma py_map_map {A B} (f : A -> py_result B) (g : A -> string) (h : B -> string)
    (l : list A) (r : list B) :
  (forall x y, f x = Return y -> h y = g x) ->
  py_map f l = Return r -> map h r = map g l.
Proof.
  intros Hf. revert r. induction l as [|x xs IH]; intros r; simpl.
  - intros H; now inversion H.
  - unfold mbind, py_result_bind, py_bind.
    destruct (f x) as [y|e] eqn:Ey; [|discriminate].
    destruct (py_map f xs) as [ys|e] eqn:Eys; [|discriminate].
    intros H; inversion H; subst. simpl. f_equal; eauto.
Qed.

Lemma update_local_split (self : PluginModel) (env : tick_env) (diskio : perdisk)
    (stats : list stat) :
  env_diskio env = Some diskio ->
  update_local self env = Return stats ->
  exists nvme_stats,
    py_map (nvme_stat env) (fst (list_nvme_drives NVMeDetection_init (env_detect_wmi env)))
      = Return nvme_stats /\
    stats = nvme_stats ++ regular_stats self diskio.
Proof.
  intros Hd. unfold update_local. rewrite Hd.
  unfold mbind, py_result_bind, py_bind.
  destruct (py_map _ _) as [ns|e]; [|discriminate].
  intros H; inversion H; subst. eauto.
Qed.

Lemma nvme_stat_speeds (env : tick_env) (d : nvme_drive) (s : stat) :
  nvme_stat env d = Return s -> st_read_speed s = 0 /\ st_write_speed s = 0.
Proof.
  unfold nvme_stat. destruct (env_drive_io env (nd_DeviceID d)) as [[c t0] t].
  destruct (fst (get_disk_io_metrics (NVMeMetrics_init t0) c t (nd_DeviceID d)))
    as [m|] eqn:Em.
  - apply get_disk_io_metrics_fresh in Em as [Hr Hw].
    unfold mbind, py_result_bind, py_bind.
    destruct (get_nvme_health_metrics _ _); [|discriminate].
    intros H; inversion H; subst; simpl. now rewrite Hr, Hw.
  - unfold mbind, py_result_bind, py_bind.
    destruct (get_nvme_health_metrics _ _); [|discriminate].
    intros H; inversion H; subst; simpl. now split.
Qed.

Lemma regular_stats_speeds (self : PluginModel) (diskio : perdisk) :
  Forall (fun s => st_read_speed s = 0 /\ st_write_speed s = 0) (regular_stats self diskio).
Proof.
  induction diskio as [|[n c] rest IH]; simpl; [constructor|].
  destruct (skip_ramfs self n); [exact IH|].
  destruct (negb (is_display self n)); [exact IH|].
  constructor; [now split|exact IH].
Qed.

(** Every record of every tick has read and write speed 0. *)
Lemma update_local_speeds_zero (self : PluginModel) (env : tick_env) (stats : list stat) :
  update_local self env = Return stats ->
  Forall (fun s => st_read_speed s = 0 /\ st_write_speed s = 0) stats.
Proof.
  destruct (env_diskio env) as [diskio|] eqn:Hd.
  - intros H. destruct (update_local_split self env diskio stats Hd H) as (ns & Hns & ->).
    apply Forall_app. split; [|apply regular_stats_speeds].
    eapply py_map_Forall; [|exact Hns]. intros x y; apply nvme_stat_speeds.
  - unfold update_local. rewrite Hd. intros H; inversion H; constructor.
Qed.

Lemma regular_stats_names (self : PluginModel) (diskio : perdisk) :
  map st_disk_name (regular_stats self diskio) =
  map fst (List.filter (fun '(n, _) => negb (skip_ramfs self n) && is_display self n) diskio).
Proof.
  induction diskio as [|[n c] rest IH]; simpl; [reflexivity|].
  destruct (skip_ramfs self n); simpl; [exact IH|].
  destruct (is_display self n); simpl; [f_equal|]; exact IH.
Qed.

(** ** Claims *)

(** C1 (code_bug): the rate state is meant to survive from one tick to the
    next, but [update_local] builds a fresh [NVMeMetrics()] for every drive on
    every tick.  Fed the same two observations (0 bytes at time 0, 2048 bytes
    at time 2), one long-lived [NVMeMetrics] reports 1024 bytes/s on the
    second call, while the second tick of [update_local] reports a read
    speed of 0 for the drive: the prior snapshot is gone. *)
Theorem C1_update_local_drops_prior_snapshot :
  (exists m,
     fst (get_disk_io_metrics
            (snd (get_disk_io_metrics (NVMeMetrics_init 0) (Some [(dev0, counters 10 0)]) 0 dev0))
            (Some [(dev0, counters 10 2048)]) 2 dev0) = Some m /\
     io_read_speed m == 1024) /\
  (exists s1 r1 s2 r2,
     update_local plugin0 (tick_at 0 0) = Return (s1 :: r1) /\
     update_local plugin0 (tick_at 2 2048) = Return (s2 :: r2) /\
     st_disk_name s2 = "Samsung SSD 990 PRO 2TB" /\
     st_read_speed s2 = 0).
Proof.
  split.
  - eexists. split; [vm_compute; reflexivity|]. vm_compute. reflexivity.
  - do 4 eexists. split; [vm_compute; reflexivity|]. split; [vm_compute; reflexivity|].
    split; reflexivity.
Qed.

(** C2 (counterexample): [read_count] and [write_count] are returned as the
    absolute counters, not as a per-second rate: with 10 reads before and 30
    reads two seconds later, the result carries 30, not (30 - 10) / 2. *)
Lemma C2_read_count_not_a_rate :
  exists m,
    fst (get_disk_io_metrics
           (snd (get_disk_io_metrics (NVMeMetrics_init 0) (Some [(dev0, counters 10 0)]) 0 dev0))
           (Some [(dev0, counters 30 2048)]) 2 dev0) = Some m /\
    io_read_count m = 30%Z /\
    ~ (inject_Z (io_read_count m) == inject_Z (30 - 10) / 2).
Proof.
  eexists. split; [vm_compute; reflexivity|]. split; [reflexivity|].
  vm_compute. discriminate.
Qed.

(** C2 (amended): for a device with a prior entry, when the elapsed time
    [dt = current_time - last_update_time self] is positive, the read and
    write speeds are the byte-counter deltas divided by [dt], [read_count]
    and [write_count] are the current absolute counters, and the snapshot
    and the time are stored. *)
Theorem C2_get_disk_io_metrics_rate (self : NVMeMetrics) (diskio : perdisk) (t : Q)
    (device_id : string) (cur last : sdiskio) :
  dict_get diskio device_id = Some cur ->
  last_disk_stats self !! device_id = Some last ->
  0 < t - last_update_time self ->
  get_disk_io_metrics self (Some diskio) t device_id =
    (Some {| io_read_speed :=
               inject_Z (read_bytes cur - read_bytes last) / (t - last_update_time self);
             io_write_speed :=
               inject_Z (write_bytes cur - write_bytes last) / (t - last_update_time self);
             io_read_count := read_count cur; io_write_count := write_count cur |},
     {| last_disk_stats := <[device_id := cur]> (last_disk_stats self);
        last_update_time := t |}).
Proof.
  intros Hd Hl Hpos. apply get_disk_io_metrics_prior with (last := last); auto.
  intros E. rewrite E in Hpos. exact (Qlt_irrefl 0 Hpos).
Qed.

(** Witness of C2: snapshots 2 s apart with a [read_bytes] delta of 2048
    give a read speed of 1024. *)
Lemma C2_get_disk_io_metrics_rate_witness :
  let self := snd (get_disk_io_metrics (NVMeMetrics_init 0) (Some [(dev0, counters 10 0)]) 0 dev0) in
  dict_get [(dev0, counters 10 2048)] dev0 = Some (counters 10 2048) /\
  last_disk_stats self !! dev0 = Some (counters 10 0) /\
  0 < 2 - last_update_time self /\
  inject_Z (read_bytes (counters 10 2048) - read_bytes (counters 10 0)) / (2 - last_update_time self)
    == 1024 /\
  get_disk_io_metrics self (Some [(dev0, counters 10 2048)]) 2 dev0 =
    (Some {| io_read_speed :=
               inject_Z (read_bytes (counters 10 2048) - read_bytes (counters 10 0)) /
               (2 - last_update_time self);
             io_write_speed :=
               inject_Z (write_bytes (counters 10 2048) - write_bytes (counters 10 0)) /
               (2 - last_update_time self);
             io_read_count := 10%Z; io_write_count := 5%Z |},
     {| last_disk_stats := <[dev0 := counters 10 2048]> (last_disk_stats self);
        last_update_time := 2 |}).
Proof.
  intros self.
  split; [reflexivity|]. split; [vm_compute; reflexivity|].
  split; [vm_compute; reflexivity|]. split; [vm_compute; reflexivity|].
  apply (C2_get_disk_io_metrics_rate self [(dev0, counters 10 2048)] 2 dev0
           (counters 10 2048) (counters 10 0)).
  - reflexivity.
  - vm_compute; reflexivity.
  - vm_compute; reflexivity.
Defined.

(** C3 (counterexample): two observations of the same device at the same
    time do not give all-zero rates: the second call returns [None]. *)
Lemma C3_identical_timestamps_not_zero_rates :
  fst (get_disk_io_metrics
         (snd (get_disk_io_metrics (NVMeMetrics_init 0) (Some [(dev0, counters 10 0)]) 0 dev0))
         (Some [(dev0, counters 10 2048)]) 0 dev0) = None.
Proof. vm_compute. reflexivity. Qed.

(** C3 (amended): for a device with a prior entry, a zero elapsed time
    makes the division raise [ZeroDivisionError], which
    [get_disk_io_metrics] catches itself: it returns [None] and leaves its
    state unchanged.  A negative elapsed time is not guarded: the speeds
    are the byte-counter deltas divided by that negative time. *)
Theorem C3_get_disk_io_metrics_nonpositive_elapsed (self : NVMeMetrics) (diskio : perdisk)
    (t : Q) (device_id : string) (cur last : sdiskio) :
  dict_get diskio device_id = Some cur ->
  last_disk_stats self !! device_id = Some last ->
  (t - last_update_time self == 0 ->
   get_disk_io_metrics self (Some diskio) t device_id = (None, self)) /\
  (t - last_update_time self < 0 ->
   exists m self',
     get_disk_io_metrics self (Some diskio) t device_id = (Some m, self') /\
     io_read_speed m = inject_Z (read_bytes cur - read_bytes last) / (t - last_update_time self) /\
     io_write_speed m = inject_Z (write_bytes cur - write_bytes last) / (t - last_update_time self)).
Proof.
  intros Hd Hl. split.
  - apply get_disk_io_metrics_zero_elapsed with (cur := cur) (last := last); auto.
  - intros Hneg. rewrite (get_disk_io_metrics_prior self diskio t device_id cur last Hd Hl).
    + do 2 eexists. split; [reflexivity|]. split; reflexivity.
    + intros E. rewrite E in Hneg. exact (Qlt_irrefl 0 Hneg).
Qed.

Lemma C3_get_disk_io_metrics_nonpositive_elapsed_witness :
  let self := snd (get_disk_io_metrics (NVMeMetrics_init 0) (Some [(dev0, counters 10 0)]) 1 dev0) in
  dict_get [(dev0, counters 10 2048)] dev0 = Some (counters 10 2048) /\
  last_disk_stats self !! dev0 = Some (counters 10 0) /\
  1 - last_update_time self == 0 /\
  get_disk_io_metrics self (Some [(dev0, counters 10 2048)]) 1 dev0 = (None, self) /\
  0 - last_update_time self < 0 /\
  exists m self',
    get_disk_io_metrics self (Some [(dev0, counters 10 2048)]) 0 dev0 = (Some m, self') /\
    io_read_speed m = inject_Z (2048 - 0) / (0 - last_update_time self) /\
    io_write_speed m = inject_Z (0 - 0) / (0 - last_update_time self).
Proof.
  intros self.
  assert (Hd : dict_get [(dev0, counters 10 2048)] dev0 = Some (counters 10 2048)) by reflexivity.
  assert (Hl : last_disk_stats self !! dev0 = Some (counters 10 0)) by (vm_compute; reflexivity).
  split; [exact Hd|]. split; [exact Hl|].
  split; [vm_compute; reflexivity|].
  split.
  - apply (proj1 (C3_get_disk_io_metrics_nonpositive_elapsed self [(dev0, counters 10 2048)] 1 dev0
                   (counters 10 2048) (counters 10 0) Hd Hl)).
    vm_compute; reflexivity.
  - split; [vm_compute; reflexivity|].
    apply (proj2 (C3_get_disk_io_metrics_nonpositive_elapsed self [(dev0, counters 10 2048)] 0 dev0
                   (counters 10 2048) (counters 10 0) Hd Hl)).
    vm_compute; reflexivity.
Defined.

(** C4 (counterexample): a [read_bytes] regression from 100 to 50 over one
    second is reported as a read speed of -50, not 0. *)
Lemma C4_regression_negative_speed :
  exists m,
    fst (get_disk_io_metrics
           (snd (get_disk_io_metrics (NVMeMetrics_init 0) (Some [(dev0, counters 10 100)]) 0 dev0))
           (Some [(dev0, counters 10 50)]) 1 dev0) = Some m /\
    io_read_speed m == -50.
Proof. eexists. split; [vm_compute; reflexivity|]. vm_compute. reflexivity. Qed.

(** C4 (amended): deltas are not clamped.  For a device with a prior entry
    and a positive elapsed time, a [read_bytes] (resp. [write_bytes]) value
    below the stored one yields a strictly negative read (resp. write)
    speed. *)
Theorem C4_get_disk_io_metrics_regression (self : NVMeMetrics) (diskio : perdisk) (t : Q)
    (device_id : string) (cur last : sdiskio) :
  dict_get diskio device_id = Some cur ->
  last_disk_stats self !! device_id = Some last ->
  0 < t - last_update_time self ->
  exists m self',
    get_disk_io_metrics self (Some diskio) t device_id = (Some m, self') /\
    ((read_bytes cur < read_bytes last)%Z -> io_read_speed m < 0) /\
    ((write_bytes cur < write_bytes last)%Z -> io_write_speed m < 0).
Proof.
  intros Hd Hl Hpos.
  rewrite (get_disk_io_metrics_prior self diskio t device_id cur last Hd Hl).
  2: { intros E. rewrite E in Hpos. exact (Qlt_irrefl 0 Hpos). }
  do 2 eexists. split; [reflexivity|]. simpl.
  split; intros Hlt; apply Qlt_shift_div_r; auto;
    rewrite Qmult_0_l; change 0 with (inject_Z 0); rewrite <- Zlt_Qlt; lia.
Qed.

Lemma C4_get_disk_io_metrics_regression_witness :
  let self := snd (get_disk_io_metrics (NVMeMetrics_init 0) (Some [(dev0, counters 10 100)]) 0 dev0) in
  dict_get [(dev0, counters 10 50)] dev0 = Some (counters 10 50) /\
  last_disk_stats self !! dev0 = Some (counters 10 100) /\
  0 < 1 - last_update_time self /\
  (read_bytes (counters 10 50) < read_bytes (counters 10 100))%Z /\
  exists m self',
    get_disk_io_metrics self (Some [(dev0, counters 10 50)]) 1 dev0 = (Some m, self') /\
    ((read_bytes (counters 10 50) < read_bytes (counters 10 100))%Z -> io_read_speed m < 0) /\
    ((write_bytes (counters 10 50) < write_bytes (counters 10 100))%Z -> io_write_speed m < 0).
Proof.
  intros self.
  split; [reflexivity|]. split; [vm_compute; reflexivity|].
  split; [vm_compute; reflexivity|]. split; [vm_compute; reflexivity|].
  apply (C4_get_disk_io_metrics_regression self [(dev0, counters 10 50)] 1 dev0
           (counters 10 50) (counters 10 100)).
  - reflexivity.
  - vm_compute; reflexivity.
  - vm_compute; reflexivity.
Defined.

(** C5: a device present in the psutil counters but with no entry in
    [last_disk_stats] gets read and write speeds of 0 whatever its
    counters; its snapshot is stored and the call time recorded. *)
Theorem C5_get_disk_io_metrics_first_observation (self : NVMeMetrics) (diskio : perdisk)
    (t : Q) (device_id : string) (cur : sdiskio) :
  dict_get diskio device_id = Some cur ->
  last_disk_stats self !! device_id = None ->
  get_disk_io_metrics self (Some diskio) t device_id =
    (Some {| io_read_speed := 0; io_write_speed := 0;
             io_read_count := read_count cur; io_write_count := write_count cur |},
     {| last_disk_stats := <[device_id := cur]> (last_disk_stats self);
        last_update_time := t |}).
Proof. intros Hd Hl. exact (get_disk_io_metrics_first self diskio t device_id cur Hd Hl). Qed.

Lemma C5_get_disk_io_metrics_first_observation_witness :
  dict_get [(dev0, counters 7 123456)] dev0 = Some (counters 7 123456) /\
  last_disk_stats (NVMeMetrics_init 0) !! dev0 = None /\
  get_disk_io_metrics (NVMeMetrics_init 0) (Some [(dev0, counters 7 123456)]) 3 dev0 =
    (Some {| io_read_speed := 0; io_write_speed := 0;
             io_read_count := 7%Z; io_write_count := 5%Z |},
     {| last_disk_stats := <[dev0 := counters 7 123456]> (last_disk_stats (NVMeMetrics_init 0));
        last_update_time := 3 |}).
Proof.
  split; [reflexivity|]. split; [vm_compute; reflexivity|].
  apply (C5_get_disk_io_metrics_first_observation (NVMeMetrics_init 0)
           [(dev0, counters 7 123456)] 3 dev0 (counters 7 123456)).
  - reflexivity.
  - vm_compute; reflexivity.
Defined.

(** C6 (counterexample): one [NVMeMetrics] created at time 0 observes
    ["sda"] at time 1, ["sdb"] at time 3, then ["sda"] again at time 5 with
    400 more bytes read.  The speed is 400 / (5 - 3) = 200, measured from
    the last update of the instance (the ["sdb"] call), not
    400 / (5 - 1) = 100 from the device's own previous observation. *)
Lemma C6_elapsed_time_shared_across_devices :
  let diskio (rb : Z) : perdisk := [("sda", counters 10 rb); ("sdb", counters 10 0)] in
  let s1 := snd (get_disk_io_metrics (NVMeMetrics_init 0) (Some (diskio 0%Z)) 1 "sda") in
  let s2 := snd (get_disk_io_metrics s1 (Some (diskio 0%Z)) 3 "sdb") in
  exists m,
    fst (get_disk_io_metrics s2 (Some (diskio 400%Z)) 5 "sda") = Some m /\
    io_read_speed m == 200 /\ ~ (io_read_speed m == inject_Z (400 - 0)%Z / (5 - 1)).
Proof.
  eexists. split; [vm_compute; reflexivity|].
  split; vm_compute; [reflexivity|discriminate].
Qed.

(** C6 (amended): [NVMeMetrics] keeps one [last_update_time] for all
    devices.  After a successful call on any device at time [t1], the next
    call on a device with a prior entry, at a time [t2] with [t2 - t1 > 0],
    divides that device's byte deltas by [t2 - t1]. *)
Theorem C6_get_disk_io_metrics_shared_time (self self1 : NVMeMetrics) (c1 : option perdisk)
    (t1 t2 : Q) (d1 d2 : string) (m1 : io_metrics) (diskio : perdisk) (cur last : sdiskio) :
  get_disk_io_metrics self c1 t1 d1 = (Some m1, self1) ->
  dict_get diskio d2 = Some cur ->
  last_disk_stats self1 !! d2 = Some last ->
  0 < t2 - t1 ->
  exists m2 self2,
    get_disk_io_metrics self1 (Some diskio) t2 d2 = (Some m2, self2) /\
    io_read_speed m2 = inject_Z (read_bytes cur - read_bytes last) / (t2 - t1) /\
    io_write_speed m2 = inject_Z (write_bytes cur - write_bytes last) / (t2 - t1) /\
    last_update_time self2 = t2.
Proof.
  intros H1 Hd Hl Hpos.
  pose proof (get_disk_io_metrics_time _ _ _ _ _ _ H1) as Ht.
  rewrite (get_disk_io_metrics_prior self1 diskio t2 d2 cur last Hd Hl).
  - rewrite Ht. do 2 eexists. split; [reflexivity|]. repeat split.
  - rewrite Ht. intros E. rewrite E in Hpos. exact (Qlt_irrefl 0 Hpos).
Qed.

Lemma C6_get_disk_io_metrics_shared_time_witness :
  let diskio (rb : Z) : perdisk := [("sda", counters 10 rb); ("sdb", counters 10 0)] in
  let s1 := snd (get_disk_io_metrics (NVMeMetrics_init 0) (Some (diskio 0%Z)) 1 "sda") in
  exists m2 self2,
    get_disk_io_metrics (snd (get_disk_io_metrics s1 (Some (diskio 0%Z)) 3 "sdb"))
      (Some (diskio 400%Z)) 5 "sda" = (Some m2, self2) /\
    io_read_speed m2 = inject_Z (400 - 0)%Z / (5 - 3) /\
    io_write_speed m2 = inject_Z (0 - 0)%Z / (5 - 3) /\
    last_update_time self2 = 5.
Proof.
  intros diskio s1.
  apply (C6_get_disk_io_metrics_shared_time s1
           (snd (get_disk_io_metrics s1 (Some (diskio 0%Z)) 3 "sdb")) (Some (diskio 0%Z)) 3 5
           "sdb" "sda"
           {| io_read_speed := 0; io_write_speed := 0; io_read_count := 10; io_write_count := 5 |}
           (diskio 400%Z) (counters 10 400) (counters 10 0)).
  - vm_compute; reflexivity.
  - reflexivity.
  - vm_compute; reflexivity.
  - vm_compute; reflexivity.
Defined.

(** C7 (counterexample): when psutil raises, the NVMe drive that detection
    would find is not reported: the tick returns no record at all. *)
Lemma C7_counter_failure_drops_nvme_records :
  fst (list_nvme_drives NVMeDetection_init (env_detect_wmi env_no_counters)) <> [] /\
  update_local plugin0 env_no_counters = Return [].
Proof. split; [vm_compute; discriminate|reflexivity]. Qed.

(** C7 (amended): if the counter-snapshot call raises, [update_local]
    catches the exception and returns the empty record list at once: the
    tick does not fail, but it reports no device, specialized or regular. *)
Theorem C7_update_local_counter_failure (self : PluginModel) (env : tick_env) :
  env_diskio env = None -> update_local self env = Return [].
Proof. intros Hd. unfold update_local. now rewrite Hd. Qed.

Lemma C7_update_local_counter_failure_witness :
  env_diskio env_no_counters = None /\ update_local plugin0 env_no_counters = Return [].
Proof.
  split; [reflexivity|].
  apply (C7_update_local_counter_failure plugin0 env_no_counters). reflexivity.
Defined.

(** C8 (counterexample): with [diskio_show_ramfs] true, a RAM disk that
    [is_display] rejects is still left out of the tick's records. *)
Lemma C8_ramfs_shown_but_not_displayed :
  args plugin_ramfs_hidden = Some true /\
  update_local plugin_ramfs_hidden (env_regular (Some [("ram0", counters 0 0)])) = Return [].
Proof. split; reflexivity. Qed.

(** C8 (amended): the records of a tick are the NVMe records followed by
    the regular ones.  A regular disk whose name starts with ["ram"] gets
    no record when [diskio_show_ramfs] is false, and gets one when it is
    true and [is_display] accepts the name. *)
Theorem C8_update_local_ramfs (self : PluginModel) (env : tick_env) (diskio : perdisk)
    (stats : list stat) (name : string) (c : sdiskio) :
  env_diskio env = Some diskio ->
  update_local self env = Return stats ->
  String.prefix "ram" name = true ->
  exists nvme_stats,
    stats = nvme_stats ++ regular_stats self diskio /\
    (args self = Some false ->
     forall s, In s (regular_stats self diskio) -> st_disk_name s <> name) /\
    (args self = Some true -> is_display self name = true -> In (name, c) diskio ->
     In (regular_stat name c) (regular_stats self diskio)).
Proof.
  intros Hd Hu Hram.
  destruct (update_local_split self env diskio stats Hd Hu) as (ns & _ & ->).
  exists ns. split; [reflexivity|]. split.
  - intros Hargs. clear Hd Hu. induction diskio as [|[n c'] rest IH]; simpl; [tauto|].
    unfold skip_ramfs at 1. rewrite Hargs. simpl.
    destruct (String.prefix "ram" n) eqn:Hp; simpl; [exact IH|].
    destruct (is_display self n); simpl; [|exact IH].
    intros s [<-|Hin]; [|now apply IH].
    simpl. intros ->. congruence.
  - intros Hargs Hdisp. clear Hd Hu. induction diskio as [|[n c'] rest IH]; simpl; [tauto|].
    assert (Hskip : forall n', skip_ramfs self n' = false)
      by (intros n'; unfold skip_ramfs; now rewrite Hargs).
    rewrite Hskip. simpl.
    intros [Heq|Hin].
    + inversion Heq; subst. rewrite Hdisp. simpl. now left.
    + destruct (is_display self n); simpl; [right|]; auto.
Qed.

Lemma C8_update_local_ramfs_witness :
  let env := env_regular (Some [("ram0", counters 0 0); ("sda", counters 1 1)]) in
  env_diskio env = Some [("ram0", counters 0 0); ("sda", counters 1 1)] /\
  update_local plugin0 env = Return [regular_stat "sda" (counters 1 1)] /\
  String.prefix "ram" "ram0" = true /\
  exists nvme_stats,
    [regular_stat "sda" (counters 1 1)] =
      nvme_stats ++ regular_stats plugin0 [("ram0", counters 0 0); ("sda", counters 1 1)] /\
    (args plugin0 = Some false ->
     forall s, In s (regular_stats plugin0 [("ram0", counters 0 0); ("sda", counters 1 1)]) ->
     st_disk_name s <> "ram0") /\
    (args plugin0 = Some true -> is_display plugin0 "ram0" = true ->
     In ("ram0", counters 0 0) [("ram0", counters 0 0); ("sda", counters 1 1)] ->
     In (regular_stat "ram0" (counters 0 0))
        (regular_stats plugin0 [("ram0", counters 0 0); ("sda", counters 1 1)])).
Proof.
  intros env.
  split; [reflexivity|]. split; [vm_compute; reflexivity|]. split; [reflexivity|].
  apply (C8_update_local_ramfs plugin0 env [("ram0", counters 0 0); ("sda", counters 1 1)]
           [regular_stat "sda" (counters 1 1)] "ram0" (counters 0 0)).
  - reflexivity.
  - vm_compute; reflexivity.
  - reflexivity.
Defined.

(** C9 (counterexample): psutil listing ["sdb"] before ["sda"] gives the
    records in that order, not sorted by name. *)
Lemma C9_records_not_sorted :
  exists stats,
    update_local plugin0 (env_regular (Some [("sdb", counters 1 1); ("sda", counters 2 2)]))
      = Return stats /\
    map st_disk_name stats = ["sdb"; "sda"] /\
    String.compare "sda" "sdb" = Lt.
Proof. eexists. split; [vm_compute; reflexivity|]. split; reflexivity. Qed.

(** C9 (amended): [update_local] applies no sort.  Its records are the NVMe
    records, in detection order and named after the drive model, followed
    by the regular disks kept by the filters, in psutil's enumeration
    order. *)
Theorem C9_update_local_order (self : PluginModel) (env : tick_env) (diskio : perdisk)
    (stats : list stat) :
  env_diskio env = Some diskio ->
  update_local self env = Return stats ->
  map st_disk_name stats =
    map nd_Model (fst (list_nvme_drives NVMeDetection_init (env_detect_wmi env))) ++
    map fst (List.filter (fun '(n, _) => negb (skip_ramfs self n) && is_display self n) diskio).
Proof.
  intros Hd Hu.
  destruct (update_local_split self env diskio stats Hd Hu) as (ns & Hns & ->).
  rewrite map_app, regular_stats_names. f_equal.
  eapply py_map_map; [|exact Hns].
  intros d s. unfold nvme_stat. destruct (env_drive_io env (nd_DeviceID d)) as [[io t0] t].
  unfold mbind, py_result_bind, py_bind.
  destruct (get_nvme_health_metrics _ _); [|discriminate].
  intros H; now inversion H.
Qed.

Lemma C9_update_local_order_witness :
  let env := tick_at 1 0 in
  env_diskio env = Some [(dev0, counters 10 0)] /\
  update_local plugin0 env =
    Return [{| st_key := get_key; st_disk_name := "Samsung SSD 990 PRO 2TB";
               st_read_speed := 0; st_write_speed := 0;
               st_read_count := 10; st_write_count := 5;
               st_read_bytes := 0; st_write_bytes := 0;
               st_health_status := "Healthy"; st_temperature := None |};
            regular_stat dev0 (counters 10 0)] /\
  map st_disk_name
    [{| st_key := get_key; st_disk_name := "Samsung SSD 990 PRO 2TB";
        st_read_speed := 0; st_write_speed := 0;
        st_read_count := 10; st_write_count := 5;
        st_read_bytes := 0; st_write_bytes := 0;
        st_health_status := "Healthy"; st_temperature := None |};
     regular_stat dev0 (counters 10 0)] =
    map nd_Model (fst (list_nvme_drives NVMeDetection_init (env_detect_wmi env))) ++
    map fst (List.filter (fun '(n, _) => negb (skip_ramfs plugin0 n) && is_display plugin0 n)
               [(dev0, counters 10 0)]).
Proof.
  intros env.
  split; [reflexivity|]. split; [vm_compute; reflexivity|].
  apply (C9_update_local_order plugin0 env [(dev0, counters 10 0)]).
  - reflexivity.
  - vm_compute; reflexivity.
Defined.

(** C10: when the WMI query lists the drives, [get_nvme_health_metrics]
    returns, without raising, the fixed placeholder status ["Healthy"] with
    no temperature for a DeviceID that matches a drive, and [None] for a
    DeviceID that matches none. *)
Theorem C10_get_nvme_health_metrics_placeholder (ds : list wmi_disk) (device_id : string) :
  (Exists (fun disk => DeviceID disk = device_id) ds ->
   get_nvme_health_metrics (Drives ds) device_id =
     Return (Some {| hm_health_status := "Healthy"; hm_temperature := None |})) /\
  (Forall (fun disk => DeviceID disk <> device_id) ds ->
   get_nvme_health_metrics (Drives ds) device_id = Return None).
Proof.
  simpl. split.
  - intros Hex.
    destruct (List.find (fun disk => String.eqb (DeviceID disk) device_id) ds) eqn:Hf;
      [reflexivity|].
    exfalso. apply Exists_exists in Hex as (d & Hin & Heq). apply list_elem_of_In in Hin.
    pose proof (find_none _ _ Hf d Hin) as Hd. simpl in Hd.
    rewrite Heq, String.eqb_refl in Hd. discriminate.
  - intros Hall.
    destruct (List.find (fun disk => String.eqb (DeviceID disk) device_id) ds) eqn:Hf;
      [|reflexivity].
    exfalso. apply find_some in Hf as [Hin Heq].
    apply String.eqb_eq in Heq.
    rewrite Forall_forall in Hall. apply list_elem_of_In in Hin. exact (Hall w Hin Heq).
Qed.

Lemma C10_get_nvme_health_metrics_placeholder_witness :
  Exists (fun disk => DeviceID disk = dev0) [drive0] /\
  get_nvme_health_metrics (Drives [drive0]) dev0 =
    Return (Some {| hm_health_status := "Healthy"; hm_temperature := None |}) /\
  Forall (fun disk => DeviceID disk <> "PhysicalDrive1") [drive0] /\
  get_nvme_health_metrics (Drives [drive0]) "PhysicalDrive1" = Return None.
Proof.
  split; [constructor; reflexivity|].
  split; [apply (proj1 (C10_get_nvme_health_metrics_placeholder [drive0] dev0));
          constructor; reflexivity|].
  split; [constructor; [discriminate|constructor]|].
  apply (proj2 (C10_get_nvme_health_metrics_placeholder [drive0] "PhysicalDrive1")).
  constructor; [discriminate|constructor].
Defined.

(** ** Further properties of the code *)

(** *** NVMe detection *)

Lemma detect_loop_acc (acc : list nvme_drive) (ds : list wmi_disk) :
  detect_loop acc ds =
    (acc ++ fst (detect_loop [] ds), snd (detect_loop [] ds)).
Proof.
  revert acc. induction ds as [|disk ds IH]; intros acc; simpl.
  - now rewrite app_nil_r.
  - destruct (py_str_in _ (Model disk)); [|apply IH].
    destruct (DiskSize disk) as [sz|]; [|now rewrite app_nil_r].
    rewrite (IH (acc ++ _)), (IH [_]). simpl. now rewrite <- app_assoc.
Qed.

Lemma detect_loop_complete (ds : list wmi_disk) :
  (forall disk, In disk ds -> py_str_in "Samsung SSD 990 PRO" (Model disk) = true ->
                DiskSize disk <> None) ->
  detect_loop [] ds = (samsung_drives ds, false).
Proof.
  induction ds as [|disk ds IH]; intros Hsz; simpl; [reflexivity|].
  destruct (py_str_in _ (Model disk)) eqn:Hm.
  - destruct (DiskSize disk) as [sz|] eqn:Hs.
    + rewrite detect_loop_acc, IH by (intros d Hd; apply Hsz; simpl; auto).
      unfold samsung_drives; simpl. rewrite ?Hm, ?Hs. reflexivity.
    + exfalso. exact (Hsz disk (or_introl eq_refl) Hm Hs).
  - rewrite IH by (intros d Hd; apply Hsz; simpl; auto).
    unfold samsung_drives; simpl. now rewrite ?Hm.
Qed.

Lemma detect_loop_sound (acc l : list nvme_drive) (raised : bool) (ds : list wmi_disk) :
  detect_loop acc ds = (l, raised) ->
  exists new, l = acc ++ new /\
    Forall (fun d => py_str_in "Samsung SSD 990 PRO" (nd_Model d) = true /\
                     exists disk, In disk ds /\ DeviceID disk = nd_DeviceID d /\
                                  Model disk = nd_Model d) new.
Proof.
  revert acc l. induction ds as [|disk ds IH]; intros acc l; simpl.
  - intros H; inversion H; subst. exists []. now rewrite app_nil_r.
  - assert (Hw : forall new, Forall (fun d => py_str_in "Samsung SSD 990 PRO" (nd_Model d) = true /\
                     exists disk, In disk ds /\ DeviceID disk = nd_DeviceID d /\
                                  Model disk = nd_Model d) new ->
               Forall (fun d => py_str_in "Samsung SSD 990 PRO" (nd_Model d) = true /\
                     exists disk', In disk' (disk :: ds) /\ DeviceID disk' = nd_DeviceID d /\
                                   Model disk' = nd_Model d) new).
    { intros new Hall. eapply Forall_impl; [exact Hall|]. simpl.
      intros d [Hd (disk' & Hin & E)]. split; [exact Hd|]. exists disk'. auto. }
    destruct (py_str_in _ (Model disk)) eqn:Hm.
    + destruct (DiskSize disk) as [sz|].
      * set (x := {| nd_DeviceID := DeviceID disk; nd_Model := Model disk;
                     nd_Size := inject_Z sz / inject_Z (1024 ^ 3) |}).
        intros H. destruct (IH _ _ H) as (new & Hl & Hall).
        exists (x :: new). rewrite Hl, <- app_assoc. split; [reflexivity|].
        constructor; [|now apply Hw].
        simpl. split; [exact Hm|]. exists disk. simpl; auto.
      * intros H; inversion H; subst. exists []. now rewrite app_nil_r.
    + intros H. destruct (IH _ _ H) as (new & Hl & Hall). exists new.
      split; [exact Hl|]. now apply Hw.
Qed.

(** X: when the WMI session fails, [detect_nvme_drives] returns the empty
    list and leaves [self.nvme_drives] as it was; otherwise it keeps the
    drives it already had as a prefix and appends only drives whose model
    contains "Samsung SSD 990 PRO", each taken from a disk of the query,
    even when [int(disk.Size)] raises part-way. *)
Theorem detect_nvme_drives_sound (self : NVMeDetection) (wmi : wmi_result) :
  ((wmi = WMIUnavailable \/ wmi = QueryFailed) ->
     detect_nvme_drives self wmi = ([], self)) /\
  (forall (ds : list wmi_disk), wmi = Drives ds ->
     exists new,
       nvme_drives (snd (detect_nvme_drives self wmi)) = nvme_drives self ++ new /\
       Forall (fun d => py_str_in "Samsung SSD 990 PRO" (nd_Model d) = true /\
                        exists disk, In disk ds /\ DeviceID disk = nd_DeviceID d /\
                                     Model disk = nd_Model d) new).
Proof.
  split.
  - intros [-> | ->]; reflexivity.
  - intros ds ->. simpl.
    destruct (detect_loop (nvme_drives self) ds) as [l raised] eqn:E. simpl.
    exact (detect_loop_sound _ _ _ _ E).
Qed.

Lemma detect_nvme_drives_sound_witness :
  (WMIUnavailable = WMIUnavailable \/ WMIUnavailable = QueryFailed) /\
  detect_nvme_drives NVMeDetection_init WMIUnavailable = ([], NVMeDetection_init) /\
  Drives [drive0] = Drives [drive0] /\
  exists new,
    nvme_drives (snd (detect_nvme_drives NVMeDetection_init (Drives [drive0]))) =
      nvme_drives NVMeDetection_init ++ new /\
    Forall (fun d => py_str_in "Samsung SSD 990 PRO" (nd_Model d) = true /\
                     exists disk, In disk [drive0] /\ DeviceID disk = nd_DeviceID d /\
                                  Model disk = nd_Model d) new.
Proof.
  split; [now left|]. split.
  - apply (proj1 (detect_nvme_drives_sound NVMeDetection_init WMIUnavailable)). now left.
  - split; [reflexivity|].
    apply (proj2 (detect_nvme_drives_sound NVMeDetection_init (Drives [drive0])) [drive0]).
    reflexivity.
Defined.

(** X: when every disk whose model contains "Samsung SSD 990 PRO" has a
    size, [detect_nvme_drives] appends exactly those disks, in query
    order, to [self.nvme_drives] and returns the whole list, so a second
    detection on the same object lists every drive twice. *)
Theorem detect_nvme_drives_twice (self : NVMeDetection) (ds : list wmi_disk) :
  (forall disk, In disk ds -> py_str_in "Samsung SSD 990 PRO" (Model disk) = true ->
                DiskSize disk <> None) ->
  detect_nvme_drives self (Drives ds) =
    (nvme_drives self ++ samsung_drives ds,
     {| nvme_drives := nvme_drives self ++ samsung_drives ds |}) /\
  nvme_drives (snd (detect_nvme_drives (snd (detect_nvme_drives self (Drives ds))) (Drives ds))) =
    nvme_drives self ++ samsung_drives ds ++ samsung_drives ds.
Proof.
  intros Hsz.
  assert (Hd : forall self', detect_nvme_drives self' (Drives ds) =
    (nvme_drives self' ++ samsung_drives ds,
     {| nvme_drives := nvme_drives self' ++ samsung_drives ds |})).
  { intros self'. simpl. rewrite detect_loop_acc, detect_loop_complete by exact Hsz.
    reflexivity. }
  split; [apply Hd|]. rewrite !Hd. simpl. now rewrite app_assoc.
Qed.

Lemma detect_nvme_drives_twice_witness :
  (forall disk, In disk [drive0] -> py_str_in "Samsung SSD 990 PRO" (Model disk) = true ->
                DiskSize disk <> None) /\
  nvme_drives (snd (detect_nvme_drives (snd (detect_nvme_drives NVMeDetection_init
    (Drives [drive0]))) (Drives [drive0]))) =
    nvme_drives NVMeDetection_init ++ samsung_drives [drive0] ++ samsung_drives [drive0].
Proof.
  assert (H : forall disk, In disk [drive0] ->
            py_str_in "Samsung SSD 990 PRO" (Model disk) = true -> DiskSize disk <> None).
  { intros disk [<-|[]] _. discriminate. }
  split; [exact H|].
  exact (proj2 (detect_nvme_drives_twice NVMeDetection_init [drive0] H)).
Defined.

Lemma detect_loop_app (acc l : list nvme_drive) (pre rest : list wmi_disk) :
  detect_loop acc pre = (l, false) ->
  detect_loop acc (pre ++ rest) = detect_loop l rest.
Proof.
  revert acc. induction pre as [|disk pre IH]; intros acc; simpl.
  - intros H; now inversion H.
  - destruct (py_str_in _ (Model disk)); [|apply IH].
    destruct (DiskSize disk); [apply IH|discriminate].
Qed.

(** X: once [list_nvme_drives] on a new detector has found a drive, the
    list is cached in the object: later calls return the same list without
    querying WMI, whatever WMI would now answer. *)
Theorem list_nvme_drives_cached (w1 w2 : wmi_result) (l1 : list nvme_drive)
    (s1 : NVMeDetection) :
  list_nvme_drives NVMeDetection_init w1 = (l1, s1) ->
  l1 <> [] ->
  list_nvme_drives s1 w2 = (l1, s1).
Proof.
  unfold list_nvme_drives at 1. simpl.
  intros H Hne. inversion H; subst. clear H.
  unfold list_nvme_drives.
  destruct (nvme_drives (snd (detect_nvme_drives NVMeDetection_init w1))) eqn:E;
    [contradiction|reflexivity].
Qed.

Lemma list_nvme_drives_cached_witness :
  list_nvme_drives NVMeDetection_init (Drives [drive0]) =
    (samsung_drives [drive0], {| nvme_drives := samsung_drives [drive0] |}) /\
  samsung_drives [drive0] <> [] /\
  list_nvme_drives {| nvme_drives := samsung_drives [drive0] |} WMIUnavailable =
    (samsung_drives [drive0], {| nvme_drives := samsung_drives [drive0] |}).
Proof.
  split; [vm_compute; reflexivity|]. split; [vm_compute; discriminate|].
  apply (list_nvme_drives_cached (Drives [drive0]) WMIUnavailable).
  - vm_compute; reflexivity.
  - vm_compute; discriminate.
Defined.

(** X: when [int(disk.Size)] raises on a matching disk, [detect_nvme_drives]
    returns the empty list, but the drives appended before that disk stay in
    [self.nvme_drives], and [list_nvme_drives] on a new detector returns
    them. *)
Theorem list_nvme_drives_partial_failure (pre post : list wmi_disk) (bad : wmi_disk) :
  (forall disk, In disk pre -> py_str_in "Samsung SSD 990 PRO" (Model disk) = true ->
                DiskSize disk <> None) ->
  py_str_in "Samsung SSD 990 PRO" (Model bad) = true ->
  DiskSize bad = None ->
  fst (detect_nvme_drives NVMeDetection_init (Drives (pre ++ bad :: post))) = [] /\
  fst (list_nvme_drives NVMeDetection_init (Drives (pre ++ bad :: post))) = samsung_drives pre.
Proof.
  intros Hpre Hm Hs.
  assert (E : detect_loop [] (pre ++ bad :: post) = (samsung_drives pre, true)).
  { rewrite (detect_loop_app [] (samsung_drives pre) pre (bad :: post))
      by now apply detect_loop_complete.
    simpl. now rewrite Hm, Hs. }
  simpl. rewrite E. now split.
Qed.

Lemma list_nvme_drives_partial_failure_witness :
  (forall disk, In disk [drive0] -> py_str_in "Samsung SSD 990 PRO" (Model disk) = true ->
                DiskSize disk <> None) /\
  py_str_in "Samsung SSD 990 PRO" (Model drive_no_size) = true /\
  DiskSize drive_no_size = None /\
  fst (detect_nvme_drives NVMeDetection_init (Drives ([drive0] ++ [drive_no_size]))) = [] /\
  fst (list_nvme_drives NVMeDetection_init (Drives ([drive0] ++ [drive_no_size]))) =
    samsung_drives [drive0].
Proof.
  assert (H : forall disk, In disk [drive0] ->
            py_str_in "Samsung SSD 990 PRO" (Model disk) = true -> DiskSize disk <> None).
  { intros disk [<-|[]] _. discriminate. }
  split; [exact H|]. split; [vm_compute; reflexivity|]. split; [reflexivity|].
  apply (list_nvme_drives_partial_failure [drive0] [] drive_no_size H);
    [vm_compute|]; reflexivity.
Defined.

(** *** [get_disk_io_metrics] *)

Lemma get_disk_io_metrics_success_inv (self self' : NVMeMetrics) (c : option perdisk) (t : Q)
    (device_id : string) (m : io_metrics) :
  get_disk_io_metrics self c t device_id = (Some m, self') ->
  exists diskio cur, c = Some diskio /\ dict_get diskio device_id = Some cur /\
    last_disk_stats self' = <[device_id := cur]> (last_disk_stats self) /\
    io_read_count m = read_count cur /\ io_write_count m = write_count cur /\
    last_update_time self' = t.
Proof.
  unfold get_disk_io_metrics.
  destruct c as [diskio|]; [|discriminate].
  destruct (dict_get diskio device_id) as [cur|] eqn:Hd; [|discriminate].
  destruct (last_disk_stats self !! device_id).
  - destruct (Qeq_bool _ 0); [discriminate|].
    intros H; inversion H; subst. now exists diskio, cur.
  - intros H; inversion H; subst. now exists diskio, cur.
Qed.

(** X: [get_disk_io_metrics] returns [None] exactly when psutil raises,
    when the device is not in psutil's counters, or when the device has a
    prior entry and no time has elapsed since the last update; in all
    these cases the object is left unchanged. *)
Theorem get_disk_io_metrics_none_iff (self : NVMeMetrics) (c : option perdisk) (t : Q)
    (device_id : string) :
  (fst (get_disk_io_metrics self c t device_id) = None <->
   c = None \/
   exists diskio, c = Some diskio /\
     (dict_get diskio device_id = None \/
      exists cur last, dict_get diskio device_id = Some cur /\
        last_disk_stats self !! device_id = Some last /\ t - last_update_time self == 0)) /\
  (fst (get_disk_io_metrics self c t device_id) = None ->
   snd (get_disk_io_metrics self c t device_id) = self).
Proof.
  unfold get_disk_io_metrics.
  destruct c as [diskio|]; [|split; [split; [now left|reflexivity]|reflexivity]].
  destruct (dict_get diskio device_id) as [cur|] eqn:Hd.
  2: { split; [|reflexivity]. split; [|reflexivity]. intros _. right. eauto. }
  destruct (last_disk_stats self !! device_id) as [last|] eqn:Hl.
  - destruct (Qeq_bool (t - last_update_time self) 0) eqn:E.
    + split; [|reflexivity]. split; [|reflexivity].
      intros _. right. exists diskio. split; [reflexivity|]. right.
      exists cur, last. repeat split; auto. now apply Qeq_bool_iff.
    + split; [|discriminate]. split; [discriminate|].
      intros [H|(d & Hc & [H|(cur' & last' & H1 & H2 & H3)])]; [discriminate| |].
      * inversion Hc; subst. congruence.
      * inversion Hc; subst. apply Qeq_bool_iff in H3. congruence.
  - split; [|discriminate]. split; [discriminate|].
    intros [H|(d & Hc & [H|(cur' & last' & H1 & H2 & H3)])]; [discriminate| |].
    + inversion Hc; subst. congruence.
    + inversion Hc; subst. congruence.
Qed.

Lemma get_disk_io_metrics_none_iff_witness :
  fst (get_disk_io_metrics (NVMeMetrics_init 0) (Some [(dev0, counters 10 0)]) 1 "sdz") = None /\
  snd (get_disk_io_metrics (NVMeMetrics_init 0) (Some [(dev0, counters 10 0)]) 1 "sdz") =
    NVMeMetrics_init 0.
Proof.
  assert (H : fst (get_disk_io_metrics (NVMeMetrics_init 0) (Some [(dev0, counters 10 0)]) 1 "sdz")
                = None).
  { apply (proj1 (get_disk_io_metrics_none_iff (NVMeMetrics_init 0)
                    (Some [(dev0, counters 10 0)]) 1 "sdz")).
    right. exists [(dev0, counters 10 0)]. split; [reflexivity|]. left. reflexivity. }
  split; [exact H|].
  exact (proj2 (get_disk_io_metrics_none_iff (NVMeMetrics_init 0)
                  (Some [(dev0, counters 10 0)]) 1 "sdz") H).
Defined.

(** X: a successful call stores the device's current counters under its
    id, leaves every other device's entry as it was (entries are never
    removed), returns the current [read_count]/[write_count] and records the
    call time as the last update time. *)
Theorem get_disk_io_metrics_store (self self' : NVMeMetrics) (c : option perdisk) (t : Q)
    (device_id : string) (m : io_metrics) :
  get_disk_io_metrics self c t device_id = (Some m, self') ->
  exists diskio cur, c = Some diskio /\ dict_get diskio device_id = Some cur /\
    last_disk_stats self' !! device_id = Some cur /\
    (forall other, other <> device_id ->
       last_disk_stats self' !! other = last_disk_stats self !! other) /\
    io_read_count m = read_count cur /\ io_write_count m = write_count cur /\
    last_update_time self' = t.
Proof.
  intros H.
  destruct (get_disk_io_metrics_success_inv _ _ _ _ _ _ H)
    as (diskio & cur & Hc & Hd & Hs & Hr & Hw & Ht).
  exists diskio, cur. rewrite Hs. repeat split; auto.
  - apply lookup_insert_eq.
  - intros other Hne. now apply lookup_insert_ne.
Qed.

Lemma get_disk_io_metrics_store_witness :
  get_disk_io_metrics (NVMeMetrics_init 0) (Some [(dev0, counters 10 0)]) 1 dev0 =
    (Some {| io_read_speed := 0; io_write_speed := 0; io_read_count := 10; io_write_count := 5 |},
     {| last_disk_stats := <[dev0 := counters 10 0]> ∅; last_update_time := 1 |}) /\
  exists diskio cur, Some [(dev0, counters 10 0)] = Some diskio /\
    dict_get diskio dev0 = Some cur /\
    last_disk_stats {| last_disk_stats := <[dev0 := counters 10 0]> ∅; last_update_time := 1 |}
      !! dev0 = Some cur /\
    (forall other, other <> dev0 ->
       last_disk_stats {| last_disk_stats := <[dev0 := counters 10 0]> ∅; last_update_time := 1 |}
         !! other = last_disk_stats (NVMeMetrics_init 0) !! other) /\
    10%Z = read_count cur /\ 5%Z = write_count cur /\ last_update_time
      {| last_disk_stats := <[dev0 := counters 10 0]> ∅; last_update_time := 1 |} = 1.
Proof.
  assert (H : get_disk_io_metrics (NVMeMetrics_init 0) (Some [(dev0, counters 10 0)]) 1 dev0 =
    (Some {| io_read_speed := 0; io_write_speed := 0; io_read_count := 10; io_write_count := 5 |},
     {| last_disk_stats := <[dev0 := counters 10 0]> ∅; last_update_time := 1 |}))
    by reflexivity.
  split; [exact H|].
  exact (get_disk_io_metrics_store _ _ _ _ _ _ H).
Defined.

(** X: observing a device twice with unchanged counters, at two different
    times, gives read and write speeds of 0 on the second call. *)
Theorem get_disk_io_metrics_unchanged_counters (self s1 : NVMeMetrics) (diskio : perdisk)
    (t t' : Q) (device_id : string) (m1 : io_metrics) :
  get_disk_io_metrics self (Some diskio) t device_id = (Some m1, s1) ->
  ~ (t' - t == 0) ->
  exists m2 s2,
    get_disk_io_metrics s1 (Some diskio) t' device_id = (Some m2, s2) /\
    io_read_speed m2 == 0 /\ io_write_speed m2 == 0.
Proof.
  intros H Hdt.
  destruct (get_disk_io_metrics_success_inv _ _ _ _ _ _ H)
    as (diskio' & cur & Hc & Hd & Hs & _ & _ & Ht).
  inversion Hc; subst diskio'.
  rewrite (get_disk_io_metrics_prior s1 diskio t' device_id cur cur Hd).
  - do 2 eexists. split; [reflexivity|]. simpl.
    rewrite !Z.sub_diag. unfold Qdiv. split; apply Qmult_0_l.
  - rewrite Hs. apply lookup_insert_eq.
  - now rewrite Ht.
Qed.

Lemma get_disk_io_metrics_unchanged_counters_witness :
  let s1 := snd (get_disk_io_metrics (NVMeMetrics_init 0) (Some [(dev0, counters 10 500)]) 1 dev0) in
  get_disk_io_metrics (NVMeMetrics_init 0) (Some [(dev0, counters 10 500)]) 1 dev0 =
    (fst (get_disk_io_metrics (NVMeMetrics_init 0) (Some [(dev0, counters 10 500)]) 1 dev0), s1) /\
  ~ (3 - 1 == 0) /\
  exists m2 s2,
    get_disk_io_metrics s1 (Some [(dev0, counters 10 500)]) 3 dev0 = (Some m2, s2) /\
    io_read_speed m2 == 0 /\ io_write_speed m2 == 0.
Proof.
  intros s1. split; [reflexivity|]. split; [vm_compute; discriminate|].
  apply (get_disk_io_metrics_unchanged_counters (NVMeMetrics_init 0) s1
           [(dev0, counters 10 500)] 1 3 dev0
           {| io_read_speed := 0; io_write_speed := 0; io_read_count := 10; io_write_count := 5 |}).
  - vm_compute; reflexivity.
  - vm_compute; discriminate.
Defined.

(** *** [update_local] *)

Lemma find_existsb {A B} (f : A -> bool) (l : list A) (a b : B) :
  match List.find f l with Some _ => a | None => b end = if existsb f l then a else b.
Proof.
  induction l as [|x l IH]; simpl; [reflexivity|].
  destruct (f x); [reflexivity|exact IH].
Qed.

Lemma nvme_stat_raise (env : tick_env) (d : nvme_drive) :
  (exists e, nvme_stat env d = Raise e) <-> env_health_wmi env = WMIUnavailable.
Proof.
  unfold nvme_stat. destruct (env_drive_io env (nd_DeviceID d)) as [[c t0] t].
  unfold mbind, py_result_bind, py_bind, get_nvme_health_metrics.
  destruct (env_health_wmi env) as [| |ds].
  - split; [reflexivity|]. intros _. eexists; reflexivity.
  - split; [intros [e He]; discriminate|discriminate].
  - split; [|discriminate]. intros [e He].
    destruct (List.find (fun disk => String.eqb (DeviceID disk) (nd_DeviceID d)) ds);
      simpl in He; discriminate He.
Qed.

Lemma py_map_Return {A B} (f : A -> py_result B) (l : list A) :
  (forall x, exists y, f x = Return y) -> exists r, py_map f l = Return r.
Proof.
  intros Hf. induction l as [|x l IH]; simpl; [eauto|].
  destruct (Hf x) as [y Hy]. destruct IH as [r Hr].
  unfold mbind, py_result_bind, py_bind. rewrite Hy, Hr. eauto.
Qed.

Lemma py_map_Raise {A B} (f : A -> py_result B) (x : A) (l : list A) :
  (forall x, exists e, f x = Raise e) -> exists e, py_map f (x :: l) = Raise e.
Proof.
  intros Hf. destruct (Hf x) as [e He]. simpl.
  unfold mbind, py_result_bind, py_bind. rewrite He. eauto.
Qed.

Lemma py_map_Forall2 {A B} (f : A -> py_result B) (P : A -> B -> Prop) (l : list A)
    (r : list B) :
  (forall x y, f x = Return y -> P x y) ->
  py_map f l = Return r -> Forall2 P l r.
Proof.
  intros Hf. revert r. induction l as [|x xs IH]; intros r; simpl.
  - intros H; inversion H; constructor.
  - unfold mbind, py_result_bind, py_bind.
    destruct (f x) as [y|e] eqn:Ey; [|discriminate].
    destruct (py_map f xs) as [ys|e] eqn:Eys; [|discriminate].
    intros H; inversion H; subst. constructor; eauto.
Qed.

(** X: [update_local] lets an exception escape exactly when psutil
    answers, at least one NVMe drive is detected and [wmi.WMI()] raises in
    [get_nvme_health_metrics] (that call is outside its [try]). *)
Theorem update_local_raises_iff (self : PluginModel) (env : tick_env) :
  (exists e, update_local self env = Raise e) <->
  env_diskio env <> None /\
  fst (list_nvme_drives NVMeDetection_init (env_detect_wmi env)) <> [] /\
  env_health_wmi env = WMIUnavailable.
Proof.
  unfold update_local.
  destruct (env_diskio env) as [diskio|];
    [|split; [intros [e He]; discriminate|intros [H _]; now contradiction]].
  destruct (fst (list_nvme_drives NVMeDetection_init (env_detect_wmi env))) as [|d ds] eqn:Ed.
  - simpl. split; [intros [e He]; discriminate|intros (_ & H & _); now contradiction].
  - destruct (env_health_wmi env) eqn:Ew.
    + split; [intros _; repeat split; discriminate|intros _].
      destruct (py_map_Raise (nvme_stat env) d ds) as [e He].
      { intros x. apply nvme_stat_raise. exact Ew. }
      unfold mbind, py_result_bind, py_bind. rewrite He. eauto.
    + split; [intros [e He]|intros (_ & _ & H); discriminate].
      destruct (py_map_Return (nvme_stat env) (d :: ds)) as [r Hr].
      { intros x. destruct (nvme_stat env x) as [y|e'] eqn:E; [eauto|].
        exfalso. assert (Hx : exists e, nvme_stat env x = Raise e) by eauto.
        apply nvme_stat_raise in Hx. congruence. }
      unfold mbind, py_result_bind, py_bind in He. rewrite Hr in He. discriminate.
    + split; [intros [e He]|intros (_ & _ & H); discriminate].
      destruct (py_map_Return (nvme_stat env) (d :: ds)) as [r Hr].
      { intros x. destruct (nvme_stat env x) as [y|e'] eqn:E; [eauto|].
        exfalso. assert (Hx : exists e, nvme_stat env x = Raise e) by eauto.
        apply nvme_stat_raise in Hx. congruence. }
      unfold mbind, py_result_bind, py_bind in He. rewrite Hr in He. discriminate.
Qed.

Lemma update_local_raises_iff_witness :
  env_diskio env_health_down <> None /\
  fst (list_nvme_drives NVMeDetection_init (env_detect_wmi env_health_down)) <> [] /\
  env_health_wmi env_health_down = WMIUnavailable /\
  exists e, update_local plugin0 env_health_down = Raise e.
Proof.
  assert (H : env_diskio env_health_down <> None /\
    fst (list_nvme_drives NVMeDetection_init (env_detect_wmi env_health_down)) <> [] /\
    env_health_wmi env_health_down = WMIUnavailable)
    by (split; [discriminate|split; [vm_compute; discriminate|reflexivity]]).
  split; [apply H|]. split; [apply H|]. split; [apply H|].
  apply (proj2 (update_local_raises_iff plugin0 env_health_down)). exact H.
Defined.

(** X: on a tick that returns, the records are one record per detected
    NVMe drive, in detection order, followed by the regular records.  The
    record of a drive is named after its model, has [read_bytes] and
    [write_bytes] 0 and no temperature, carries the [read_count] and
    [write_count] that its own psutil call reports for its DeviceID (0 when
    that call fails or lacks the DeviceID), and has health "Healthy" when
    the health query lists its DeviceID and "Unknown" otherwise. *)
Theorem update_local_nvme_records (self : PluginModel) (env : tick_env) (diskio : perdisk)
    (stats : list stat) :
  env_diskio env = Some diskio ->
  update_local self env = Return stats ->
  exists nvme_stats,
    stats = nvme_stats ++ regular_stats self diskio /\
    Forall2 (fun d s =>
      st_disk_name s = nd_Model d /\
      st_read_bytes s = 0%Z /\ st_write_bytes s = 0%Z /\ st_temperature s = None /\
      (let '(io_call, _, _) := env_drive_io env (nd_DeviceID d) in
       match io_call with
       | Some io => match dict_get io (nd_DeviceID d) with
                    | Some cur => st_read_count s = read_count cur /\
                                  st_write_count s = write_count cur
                    | None => st_read_count s = 0%Z /\ st_write_count s = 0%Z
                    end
       | None => st_read_count s = 0%Z /\ st_write_count s = 0%Z
       end) /\
      st_health_status s =
        match env_health_wmi env with
        | Drives ds =>
          if existsb (fun disk => String.eqb (DeviceID disk) (nd_DeviceID d)) ds
          then "Healthy" else "Unknown"
        | _ => "Unknown"
        end)
      (fst (list_nvme_drives NVMeDetection_init (env_detect_wmi env))) nvme_stats.
Proof.
  intros Hd Hu.
  destruct (update_local_split self env diskio stats Hd Hu) as (ns & Hns & ->).
  exists ns. split; [reflexivity|].
  eapply py_map_Forall2; [|exact Hns].
  intros d s. unfold nvme_stat.
  destruct (env_drive_io env (nd_DeviceID d)) as [[io t0] t].
  unfold mbind, py_result_bind, py_bind, get_nvme_health_metrics.
  assert (Hio : forall m, fst (get_disk_io_metrics (NVMeMetrics_init t0) io t (nd_DeviceID d))
                            = m ->
    match io with
    | Some io => match dict_get io (nd_DeviceID d) with
                 | Some cur => match m with Some m => io_read_count m | None => 0%Z end
                                 = read_count cur /\
                               match m with Some m => io_write_count m | None => 0%Z end
                                 = write_count cur
                 | None => match m with Some m => io_read_count m | None => 0%Z end = 0%Z /\
                           match m with Some m => io_write_count m | None => 0%Z end = 0%Z
                 end
    | None => match m with Some m => io_read_count m | None => 0%Z end = 0%Z /\
              match m with Some m => io_write_count m | None => 0%Z end = 0%Z
    end).
  { intros m <-. unfold get_disk_io_metrics; simpl. destruct io as [io|]; [|now split].
    destruct (dict_get io (nd_DeviceID d)); [|now split].
    rewrite lookup_empty. simpl. now split. }
  specialize (Hio _ eq_refl).
  destruct (env_health_wmi env) as [| |ds]; [discriminate| |];
    [|rewrite (find_existsb _ ds (Return (Some _)) (Return None))];
    [|destruct (existsb _ ds)];
    intros H; inversion H; subst; simpl; repeat split; auto.
Qed.

Lemma update_local_nvme_records_witness :
  env_diskio (tick_at 1 0) = Some [(dev0, counters 10 0)] /\
  update_local plugin0 (tick_at 1 0) =
    Return [{| st_key := get_key; st_disk_name := "Samsung SSD 990 PRO 2TB";
               st_read_speed := 0; st_write_speed := 0;
               st_read_count := 10; st_write_count := 5;
               st_read_bytes := 0; st_write_bytes := 0;
               st_health_status := "Healthy"; st_temperature := None |};
            regular_stat dev0 (counters 10 0)] /\
  exists nvme_stats,
    [{| st_key := get_key; st_disk_name := "Samsung SSD 990 PRO 2TB";
        st_read_speed := 0; st_write_speed := 0;
        st_read_count := 10; st_write_count := 5;
        st_read_bytes := 0; st_write_bytes := 0;
        st_health_status := "Healthy"; st_temperature := None |};
     regular_stat dev0 (counters 10 0)] =
      nvme_stats ++ regular_stats plugin0 [(dev0, counters 10 0)] /\
    Forall2 (fun d s =>
      st_disk_name s = nd_Model d /\
      st_read_bytes s = 0%Z /\ st_write_bytes s = 0%Z /\ st_temperature s = None /\
      (let '(io_call, _, _) := env_drive_io (tick_at 1 0) (nd_DeviceID d) in
       match io_call with
       | Some io => match dict_get io (nd_DeviceID d) with
                    | Some cur => st_read_count s = read_count cur /\
                                  st_write_count s = write_count cur
                    | None => st_read_count s = 0%Z /\ st_write_count s = 0%Z
                    end
       | None => st_read_count s = 0%Z /\ st_write_count s = 0%Z
       end) /\
      st_health_status s =
        match env_health_wmi (tick_at 1 0) with
        | Drives ds =>
          if existsb (fun disk => String.eqb (DeviceID disk) (nd_DeviceID d)) ds
          then "Healthy" else "Unknown"
        | _ => "Unknown"
        end)
      (fst (list_nvme_drives NVMeDetection_init (env_detect_wmi (tick_at 1 0)))) nvme_stats.
Proof.
  split; [reflexivity|]. split; [vm_compute; reflexivity|].
  apply (update_local_nvme_records plugin0 (tick_at 1 0) [(dev0, counters 10 0)]).
  - reflexivity.
  - vm_compute; reflexivity.
Defined.

(** X: every regular record names a disk of the psutil dict that passes
    the RAM-disk test and [is_display], and is that disk's counters with
    read and write speed 0, health "N/A" and no temperature. *)
Theorem regular_stats_sound (self : PluginModel) (diskio : perdisk) :
  Forall (fun s =>
    exists c, In (st_disk_name s, c) diskio /\
      skip_ramfs self (st_disk_name s) = false /\ is_display self (st_disk_name s) = true /\
      st_read_count s = read_count c /\ st_write_count s = write_count c /\
      st_read_bytes s = read_bytes c /\ st_write_bytes s = write_bytes c /\
      st_read_speed s = 0 /\ st_write_speed s = 0 /\
      st_health_status s = "N/A" /\ st_temperature s = None)
    (regular_stats self diskio).
Proof.
  induction diskio as [|[n c] rest IH]; simpl; [constructor|].
  assert (Hw : forall l, Forall (fun s => exists c, In (st_disk_name s, c) rest /\
      skip_ramfs self (st_disk_name s) = false /\ is_display self (st_disk_name s) = true /\
      st_read_count s = read_count c /\ st_write_count s = write_count c /\
      st_read_bytes s = read_bytes c /\ st_write_bytes s = write_bytes c /\
      st_read_speed s = 0 /\ st_write_speed s = 0 /\
      st_health_status s = "N/A" /\ st_temperature s = None) l ->
    Forall (fun s => exists c', In (st_disk_name s, c') ((n, c) :: rest) /\
      skip_ramfs self (st_disk_name s) = false /\ is_display self (st_disk_name s) = true /\
      st_read_count s = read_count c' /\ st_write_count s = write_count c' /\
      st_read_bytes s = read_bytes c' /\ st_write_bytes s = write_bytes c' /\
      st_read_speed s = 0 /\ st_write_speed s = 0 /\
      st_health_status s = "N/A" /\ st_temperature s = None) l).
  { intros l Hl. eapply Forall_impl; [exact Hl|].
    intros s (c' & Hin & Hrest). exists c'. split; [now right|exact Hrest]. }
  destruct (skip_ramfs self n) eqn:Hs; [now apply Hw|].
  destruct (is_display self n) eqn:Hd; simpl; [|now apply Hw].
  constructor; [|now apply Hw].
  exists c. simpl. split; [now left|]. repeat split; assumption.
Qed.

(** *** [msg_curse] *)

Lemma py_len_app (a b : string) : py_len (a +:+ b) = (py_len a + py_len b)%nat.
Proof.
  induction a as [|c a IH]; simpl; [reflexivity|].
  destruct (is_cont c); rewrite IH; reflexivity.
Qed.

Lemma py_len_spaces (n : nat) : py_len (spaces n) = n.
Proof. induction n as [|n IH]; simpl; [reflexivity|]. now rewrite IH. Qed.

Lemma py_len_take (n : nat) (s : string) : py_len (py_take n s) = Nat.min n (py_len s).
Proof.
  revert n. induction s as [|c s IH]; intros n; simpl.
  - now rewrite Nat.min_0_r.
  - destruct (is_cont c) eqn:E.
    + simpl. rewrite E, IH. reflexivity.
    + destruct n as [|n]; simpl; rewrite ?E; [reflexivity|]. now rewrite IH.
Qed.

Lemma append_empty_r (s : string) : s +:+ "" = s.
Proof.
  induction s as [|c s IH]; [reflexivity|].
  change (String c (s +:+ "") = String c s). now rewrite IH.
Qed.

Section MsgCurseProofs.
Variable sorted_stats : list stat -> list stat.
Variable all_hidden : stat -> bool.
Variable alias : stat -> option string.
Variable auto_unit : option Q -> string.
Variable py_str_float : Q -> string.

Lemma curse_row_ok (w : Z) (i : stat) :
    (0 <= w)%Z ->
    curse_row alias auto_unit py_str_float w i =
      Return [CurseNewLine;
              curse_add_line (ljust (Z.to_nat (w + 1)) (display_name alias w i));
              curse_add_line (rjust 8 (auto_unit (Some (st_read_speed i))));
              curse_add_line (rjust 7 (auto_unit (Some (st_write_speed i))));
              curse_add_line (rjust 10 (temperature_text py_str_float i));
              curse_add_line (rjust 12 (st_health_status i))].
  Proof.
    intros Hw. unfold curse_row, format_width.
    destruct (w + 1 <? 0)%Z eqn:E; [apply Z.ltb_lt in E; lia|reflexivity].
  Qed.

End MsgCurseProofs.

(** X: with a non-empty [stats], an enabled plugin and a [max_width]
    between 1 and 29, [msg_curse] raises [ValueError]: the title's width
    [max_width - 30] is negative. *)
Theorem msg_curse_narrow_raises (sorted_stats : list stat -> list stat)
    (all_hidden : stat -> bool) (alias : stat -> option string)
    (auto_unit : option Q -> string) (py_str_float : Q -> string)
    (stats : list stat) (max_width : Z) :
  stats <> [] -> (0 < max_width < 30)%Z ->
  msg_curse sorted_stats all_hidden alias auto_unit py_str_float stats false (Some max_width) =
    Raise "ValueError".
Proof.
  intros Hne Hw. unfold msg_curse.
  destruct stats as [|s stats]; [contradiction|].
  destruct (max_width =? 0)%Z eqn:E0; [apply Z.eqb_eq in E0; lia|].
  unfold format_width. destruct (max_width - 30 <? 0)%Z eqn:E; [reflexivity|].
  apply Z.ltb_ge in E. lia.
Qed.

Lemma msg_curse_narrow_raises_witness :
  [regular_stat "sda" (counters 1 1)] <> [] /\ (0 < 20 < 30)%Z /\
  msg_curse (fun l => l) (fun _ => false) (fun _ => None) (fun _ => "0") (fun _ => "0")
    [regular_stat "sda" (counters 1 1)] false (Some 20%Z) = Raise "ValueError".
Proof.
  split; [discriminate|]. split; [lia|].
  apply msg_curse_narrow_raises; [discriminate|lia].
Defined.



(** X: for a width [w = max_width - 30 >= 0], the name cell of a row is
    exactly [w + 1] characters wide: a name (or alias) of at most [w]
    characters is kept whole and padded with spaces, a longer one is cut to
    its first [w] characters followed by '_'. *)
Theorem curse_row_name_cell (alias : stat -> option string) (auto_unit : option Q -> string)
    (py_str_float : Q -> string) (w : Z) (i : stat) :
  (0 <= w)%Z ->
  let name := match alias i with Some a => a | None => st_disk_name i end in
  exists msg rest,
    curse_row alias auto_unit py_str_float w i =
      Return (CurseNewLine :: CurseLine msg "DEFAULT" :: rest) /\
    py_len msg = Z.to_nat (w + 1) /\
    ((Z.of_nat (py_len name) <= w)%Z ->
     msg = name +:+ spaces (Z.to_nat (w + 1) - py_len name)) /\
    ((w < Z.of_nat (py_len name))%Z -> msg = py_take (Z.to_nat w) name +:+ "_").
Proof.
  intros Hw name.
  rewrite (curse_row_ok alias auto_unit py_str_float w i Hw).
  do 2 eexists. split; [reflexivity|].
  unfold ljust, display_name. fold name.
  destruct (w <? Z.of_nat (py_len name))%Z eqn:E.
  - apply Z.ltb_lt in E.
    assert (Hl : py_len (py_take (Z.to_nat w) name +:+ "_") = Z.to_nat (w + 1)).
    { rewrite py_len_app, py_len_take. simpl. lia. }
    rewrite Hl, Nat.sub_diag. simpl spaces. rewrite append_empty_r.
    split; [exact Hl|]. split; [lia|reflexivity].
  - apply Z.ltb_ge in E.
    rewrite py_len_app, py_len_spaces. split; [lia|]. split; [reflexivity|lia].
Qed.

Lemma curse_row_name_cell_witness :
  (0 <= 5)%Z /\
  exists msg rest,
    curse_row (fun _ => None) (fun _ => "0") (fun _ => "0") 5 (regular_stat "sda_very_long" (counters 1 1)) =
      Return (CurseNewLine :: CurseLine msg "DEFAULT" :: rest) /\
    py_len msg = Z.to_nat (5 + 1) /\
    ((Z.of_nat (py_len "sda_very_long") <= 5)%Z ->
     msg = "sda_very_long" +:+ spaces (Z.to_nat (5 + 1) - py_len "sda_very_long")) /\
    ((5 < Z.of_nat (py_len "sda_very_long"))%Z -> msg = py_take (Z.to_nat 5) "sda_very_long" +:+ "_").
Proof.
  split; [lia|].
  exact (curse_row_name_cell (fun _ => None) (fun _ => "0") (fun _ => "0") 5
           (regular_stat "sda_very_long" (counters 1 1)) ltac:(lia)).
Defined.

Lemma nvme_stat_temperature (env : tick_env) (d : nvme_drive) (s : stat) :
  nvme_stat env d = Return s -> st_temperature s = None.
Proof.
  unfold nvme_stat. destruct (env_drive_io env (nd_DeviceID d)) as [[io t0] t].
  unfold mbind, py_result_bind, py_bind, get_nvme_health_metrics.
  destruct (env_health_wmi env) as [| |ds]; [discriminate| |].
  - intros H; now inversion H.
  - destruct (List.find (fun disk => String.eqb (DeviceID disk) (nd_DeviceID d)) ds);
      intros H; now inversion H.
Qed.

Lemma regular_stats_temperature (self : PluginModel) (diskio : perdisk) :
  Forall (fun s => st_temperature s = None) (regular_stats self diskio).
Proof.
  induction diskio as [|[n c] rest IH]; simpl; [constructor|].
  destruct (skip_ramfs self n); [exact IH|].
  destruct (negb (is_display self n)); [exact IH|].
  constructor; [reflexivity|exact IH].
Qed.

(** X: no record of [update_local] has a temperature, so the Temp cell that
    [msg_curse] shows for each of them is "N/A". *)
Theorem update_local_temperature_na (py_str_float : Q -> string) (self : PluginModel)
    (env : tick_env) (stats : list stat) :
  update_local self env = Return stats ->
  Forall (fun s => st_temperature s = None /\
                   rjust 10 (temperature_text py_str_float s) = "       N/A") stats.
Proof.
  intros Hu.
  assert (Ht : Forall (fun s => st_temperature s = None) stats).
  { destruct (env_diskio env) as [diskio|] eqn:Hd.
    - destruct (update_local_split self env diskio stats Hd Hu) as (ns & Hns & ->).
      apply Forall_app. split; [|apply regular_stats_temperature].
      eapply py_map_Forall; [|exact Hns]. intros x y; apply nvme_stat_temperature.
    - unfold update_local in Hu. rewrite Hd in Hu. inversion Hu; constructor. }
  eapply Forall_impl; [exact Ht|]. intros s Hs. split; [exact Hs|].
  unfold temperature_text. now rewrite Hs.
Qed.

Lemma update_local_temperature_na_witness :
  update_local plugin0 (tick_at 1 0) =
    Return [{| st_key := get_key; st_disk_name := "Samsung SSD 990 PRO 2TB";
               st_read_speed := 0; st_write_speed := 0;
               st_read_count := 10; st_write_count := 5;
               st_read_bytes := 0; st_write_bytes := 0;
               st_health_status := "Healthy"; st_temperature := None |};
            regular_stat dev0 (counters 10 0)] /\
  Forall (fun s => st_temperature s = None /\
                   rjust 10 (temperature_text (fun _ => "42.0") s) = "       N/A")
    [{| st_key := get_key; st_disk_name := "Samsung SSD 990 PRO 2TB";
        st_read_speed := 0; st_write_speed := 0;
        st_read_count := 10; st_write_count := 5;
        st_read_bytes := 0; st_write_bytes := 0;
        st_health_status := "Healthy"; st_temperature := None |};
     regular_stat dev0 (counters 10 0)].
Proof.
  assert (H : update_local plugin0 (tick_at 1 0) =
    Return [{| st_key := get_key; st_disk_name := "Samsung SSD 990 PRO 2TB";
               st_read_speed := 0; st_write_speed := 0;
               st_read_count := 10; st_write_count := 5;
               st_read_bytes := 0; st_write_bytes := 0;
               st_health_status := "Healthy"; st_temperature := None |};
            regular_stat dev0 (counters 10 0)]) by (vm_compute; reflexivity).
  split; [exact H|].
  exact (update_local_temperature_na (fun _ => "42.0") plugin0 (tick_at 1 0) _ H).
Defined.
